(** * tender-app: the view controller of [static/script.js]

    A shallow embedding of the browser script that lets a user pick a
    filial, fetches its records from [/data], hands them to a DataTables
    table with one checkbox per row, and navigates to [/export] for the
    checked rows.

    Conventions of the embedding.
    - A JavaScript string is represented by the bytes of its UTF-8 encoding
      (a [string] of 8-bit [ascii]); only well-formed strings occur.
    - A JavaScript object obtained from JSON is an association list of its
      own properties, kept in the order in which [Object.keys] enumerates
      them; a property read falls back to the members inherited from
      [Object.prototype].
    - The body of a [/data] response is typed as the endpoint promises it:
      a map from filial identifiers to sequences of row objects.
    - The page, the table library and the network are the environment: the
      script's handlers are state transformers over the part of the page the
      script touches, and the environment's moves are the events of [step]. *)

From Stdlib Require Import Ascii.
From stdpp Require Import base option list strings pretty gmap.
Local Open Scope string_scope.

(* ===================================================================== *)
(** ** Strings *)
(* ===================================================================== *)

Module JsString.

(** [Array.prototype.join] on an array of strings. *)
Fixpoint join (sep : string) (l : list string) : string :=
  match l with
  | [] => ""
  | [x] => x
  | x :: r => x +:+ sep +:+ join sep r
  end.

(** Number-to-string conversion of an array index: plain decimal digits. *)
Definition of_index (n : nat) : string := pretty n.

(** Characters that [encodeURIComponent] leaves alone:
    [A-Z a-z 0-9 - _ . ! ~ * ' ( )]. *)
Definition uriUnreserved (c : ascii) : bool :=
  let n := nat_of_ascii c in
  (Nat.leb 65 n && Nat.leb n 90) || (Nat.leb 97 n && Nat.leb n 122)
  || (Nat.leb 48 n && Nat.leb n 57)
  || bool_decide (c ∈ String.list_ascii_of_string "-_.!~*'()").

Definition hexDigit (n : nat) : ascii :=
  default "0"%char (String.list_ascii_of_string "0123456789ABCDEF" !! n).

(** One byte of the UTF-8 encoding: kept, or escaped as [%XX]. *)
Definition encodeByte (c : ascii) : string :=
  if uriUnreserved c then String c ""
  else
    let n := nat_of_ascii c in
    String "%" (String (hexDigit (n / 16)) (String (hexDigit (n mod 16)) "")).

Fixpoint encodeURIComponent (s : string) : string :=
  match s with
  | "" => ""
  | String c r => encodeByte c +:+ encodeURIComponent r
  end.

(** The double-quote character, as a string. *)
Definition dquote : string := String (ascii_of_nat 34) "".

(** Characters of a string, for membership statements. *)
Definition chars (s : string) : list ascii := String.list_ascii_of_string s.

End JsString.

Import JsString.

(* ===================================================================== *)
(** ** Values received from the data endpoint *)
(* ===================================================================== *)

(** Values the script handles: JSON values, and the members that every
    object inherits from [Object.prototype] (functions, or the prototype
    itself under [__proto__]), which a property read can return although no
    JSON text contains them.  The script never computes on a cell value, it
    only asks whether a property is [undefined]; numbers are kept as
    integers. *)
#[warnings="-register-all"]
Inductive jsval : Type :=
| JNull
| JBool (b : bool)
| JNum (n : Z)
| JStr (s : string)
| JArr (items : list jsval)
| JObj (props : list (string * jsval))
| JInherited (name : string).

(** A row record: the own properties of one JSON object, in the order in
    which [Object.keys] enumerates them. *)
Abbreviation object := (list (string * jsval)).

(** The body of a [/data] response: filial identifier to sequence of rows. *)
Abbreviation response := (gmap string (list object)).

Module Obj.

(** [Object.keys(o)] *)
Definition keys (o : object) : list string := o.*1.

(** The names every object inherits from [Object.prototype], each with the
    [length] of the inherited function; [__proto__] yields the prototype
    object, which has no [length]. *)
Definition prototype_members : list (string * option nat) :=
  [ ("constructor", Some 1); ("hasOwnProperty", Some 1);
    ("isPrototypeOf", Some 1); ("propertyIsEnumerable", Some 1);
    ("toLocaleString", Some 0); ("toString", Some 0); ("valueOf", Some 0);
    ("__defineGetter__", Some 2); ("__defineSetter__", Some 2);
    ("__lookupGetter__", Some 1); ("__lookupSetter__", Some 1);
    ("__proto__", None) ].

(** Is [k] the name of an inherited member? *)
Definition inherited (k : string) : bool :=
  bool_decide (k ∈ prototype_members.*1).

(** The own property [k] of [o], if it has one. *)
Fixpoint get_own (o : object) (k : string) : option jsval :=
  match o with
  | [] => None
  | (k', v) :: r => if decide (k' = k) then Some v else get_own r k
  end.

(** [o[k]]: the own property, else the inherited member of that name;
    [None] stands for [undefined]. *)
Definition get (o : object) (k : string) : option jsval :=
  match get_own o k with
  | Some v => Some v
  | None => if inherited k then Some (JInherited k) else None
  end.

End Obj.

(** The value of [filialSelect.val()]: a string, or [null] when the control
    has no selected option. *)
Abbreviation selection := (option string).

(** String conversion of a selection, as applied by template literals, by
    [encodeURIComponent] and by property access. *)
Definition ToString (v : selection) : string := default "null" v.

(** Truthiness of a selection: [null] and the empty string are falsy. *)
Definition truthy (v : selection) : bool :=
  match v with
  | Some s => negb (bool_decide (s = ""))
  | None => false
  end.

(* ===================================================================== *)
(** ** The table library, as far as the script drives it *)
(* ===================================================================== *)

Inductive direction : Type := asc | desc.

Record column : Type := { title : string }.

Record columnDef : Type := { orderable : bool; targets : nat }.

(** The options object passed to [$('#tenderTable').DataTable(...)]. *)
Record options : Type := {
  data : list (list jsval);
  columns : list column;
  columnDefs : list columnDef;
  order : list (nat * direction);
  language_url : string
}.

(** A table instance: the options it was created with, and whether
    [destroy()] has been called on it. *)
Record instance : Type := {
  settings : options;
  destroyed : bool
}.

(** An [input.row-select] element of the table body. *)
Record checkbox : Type := {
  data_index : nat;    (* the number jQuery reads from the data-index attribute *)
  is_checked : bool    (* the element's checked state *)
}.

(** What the script does to its surroundings, in the order it does it. *)
Inductive effect : Type :=
| Destroy (h : nat)                 (* dataTable.destroy() on instance h *)
| EmptyTbody                        (* $('#tenderTable tbody').empty() *)
| EmptyTheadTr                      (* $('#tenderTable thead tr').empty() *)
| PropDisabled (b : bool)           (* exportBtn.prop('disabled', b) *)
| GetJSON (url : string)            (* $.getJSON(url, callback) *)
| AppendTh (html : string)          (* $('#tenderTable thead tr').append(html) *)
| InitDataTable (o : options)       (* $('#tenderTable').DataTable(o) *)
| Navigate (url : string)           (* window.location.href = url *)
| Uncaught (error : string).        (* the handler ends in an uncaught exception *)

(* ===================================================================== *)
(** ** The page *)
(* ===================================================================== *)

(** The part of the page and of the script's closure that the script reads
    or writes. *)
Record page : Type := {
  dataTable : option nat;        (* [let dataTable]: null, or a reference into [tables] *)
  tables : list instance;        (* instances created on #tenderTable, by reference *)
  thead_tr : list string;        (* cells of the header row, as the markup appended *)
  tbody : list checkbox;         (* row-select boxes of the body rows, document order *)
  export_disabled : bool;        (* exportBtn's disabled property *)
  filial_val : selection;        (* filialSelect.val() *)
  pending : list selection;      (* outstanding requests: the [filial] each callback captured *)
  href : option string;          (* last value assigned to window.location.href *)
  trace : list effect            (* effects so far, oldest first *)
}.

Definition set_dataTable (x : option nat) (s : page) : page :=
  {| dataTable := x; tables := tables s; thead_tr := thead_tr s; tbody := tbody s;
     export_disabled := export_disabled s; filial_val := filial_val s;
     pending := pending s; href := href s; trace := trace s |}.

Definition set_tables (x : list instance) (s : page) : page :=
  {| dataTable := dataTable s; tables := x; thead_tr := thead_tr s; tbody := tbody s;
     export_disabled := export_disabled s; filial_val := filial_val s;
     pending := pending s; href := href s; trace := trace s |}.

Definition set_thead_tr (x : list string) (s : page) : page :=
  {| dataTable := dataTable s; tables := tables s; thead_tr := x; tbody := tbody s;
     export_disabled := export_disabled s; filial_val := filial_val s;
     pending := pending s; href := href s; trace := trace s |}.

Definition set_tbody (x : list checkbox) (s : page) : page :=
  {| dataTable := dataTable s; tables := tables s; thead_tr := thead_tr s; tbody := x;
     export_disabled := export_disabled s; filial_val := filial_val s;
     pending := pending s; href := href s; trace := trace s |}.

Definition set_export_disabled (x : bool) (s : page) : page :=
  {| dataTable := dataTable s; tables := tables s; thead_tr := thead_tr s; tbody := tbody s;
     export_disabled := x; filial_val := filial_val s;
     pending := pending s; href := href s; trace := trace s |}.

Definition set_filial_val (x : selection) (s : page) : page :=
  {| dataTable := dataTable s; tables := tables s; thead_tr := thead_tr s; tbody := tbody s;
     export_disabled := export_disabled s; filial_val := x;
     pending := pending s; href := href s; trace := trace s |}.

Definition set_pending (x : list selection) (s : page) : page :=
  {| dataTable := dataTable s; tables := tables s; thead_tr := thead_tr s; tbody := tbody s;
     export_disabled := export_disabled s; filial_val := filial_val s;
     pending := x; href := href s; trace := trace s |}.

Definition set_href (x : option string) (s : page) : page :=
  {| dataTable := dataTable s; tables := tables s; thead_tr := thead_tr s; tbody := tbody s;
     export_disabled := export_disabled s; filial_val := filial_val s;
     pending := pending s; href := x; trace := trace s |}.

Definition log (e : effect) (s : page) : page :=
  {| dataTable := dataTable s; tables := tables s; thead_tr := thead_tr s; tbody := tbody s;
     export_disabled := export_disabled s; filial_val := filial_val s;
     pending := pending s; href := href s; trace := (trace s ++ [e])%list |}.

(** Is a table currently rendered: does the handle refer to an instance that
    has not been destroyed? *)
Definition rendered (s : page) : bool :=
  match dataTable s with
  | Some h =>
      match tables s !! h with
      | Some inst => negb (destroyed inst)
      | None => false
      end
  | None => false
  end.

(* ===================================================================== *)
(** ** Handlers as state transformers *)
(* ===================================================================== *)

(** A handler runs to completion on the page and returns a value. *)
Definition M (A : Type) : Type := page -> A * page.

Definition ret {A} (a : A) : M A := fun s => (a, s).

Definition bind {A B} (m : M A) (k : A -> M B) : M B :=
  fun s => let (a, s') := m s in k a s'.

Definition read {A} (f : page -> A) : M A := fun s => (f s, s).

Definition modify (f : page -> page) : M unit := fun s => (tt, f s).

(** [throw]: the handler ends in an uncaught exception.  Used in tail
    position only, so nothing of the handler runs after it. *)
Definition throw (error : string) : M unit :=
  fun s =>
    (tt, {| dataTable := dataTable s; tables := tables s; thead_tr := thead_tr s;
            tbody := tbody s; export_disabled := export_disabled s;
            filial_val := filial_val s; pending := pending s; href := href s;
            trace := (trace s ++ [Uncaught error])%list |}).

(** The page a handler leaves behind. *)
Definition exec {A} (m : M A) (s : page) : page := (m s).2.

Notation "'let*' x ':=' m 'in' k" := (bind m (fun x => k))
  (at level 10, x name, m at level 100, k at level 200).
Notation "m ';;' k" := (bind m (fun _ => k))
  (at level 100, k at level 200, right associativity).

(** [array.forEach(f)] *)
Fixpoint forEach {A} (l : list A) (f : A -> M unit) : M unit :=
  match l with
  | [] => ret tt
  | x :: r => f x ;; forEach r f
  end.

Module Dom.

(** [exportBtn.prop('disabled', b)] *)
Definition exportBtn_prop_disabled (b : bool) : M unit :=
  modify (fun s => log (PropDisabled b) (set_export_disabled b s)).

(** [$('#tenderTable tbody').empty()] *)
Definition tbody_empty : M unit :=
  modify (fun s => log EmptyTbody (set_tbody [] s)).

(** [$('#tenderTable thead tr').empty()] *)
Definition thead_tr_empty : M unit :=
  modify (fun s => log EmptyTheadTr (set_thead_tr [] s)).

(** [$('#tenderTable thead tr').append(html)]: one more piece of markup at
    the end of the header row.  [thead_tr] lists the markup appended since
    the row was last emptied; how the browser parses a piece into cells is
    not modelled. *)
Definition thead_tr_append (html : string) : M unit :=
  modify (fun s => log (AppendTh html) (set_thead_tr (thead_tr s ++ [html])%list s)).

(** [$.getJSON(url, callback)]: the request is sent and the callback, with
    the [filial] it closes over, waits for the response. *)
Definition getJSON (url : string) (captured : selection) : M unit :=
  modify (fun s => log (GetJSON url) (set_pending (pending s ++ [captured])%list s)).

(** [window.location.href = url] *)
Definition navigate (url : string) : M unit :=
  modify (fun s => log (Navigate url) (set_href (Some url) s)).

End Dom.

Module DataTables.

Definition mark_destroyed (inst : instance) : instance :=
  {| settings := settings inst; destroyed := true |}.

(** [api.destroy()] on the instance behind reference [h], for a call that
    returns: the instance is marked destroyed.  What the library does to the
    document on a repeated call, and the calls on which it throws, are not
    modelled. *)
Definition destroy (h : nat) : M unit :=
  modify (fun s => log (Destroy h) (set_tables (alter mark_destroyed h (tables s)) s)).

(** The instance currently attached to [#tenderTable], if any. *)
Definition attached (l : list instance) : option nat :=
  fst <$> list_find (fun inst => destroyed inst = false) l.

(** [$('#tenderTable').DataTable(o)], for a call that returns.  The library
    keeps one instance per table element: while one is attached it refuses
    to reinitialise and hands back the attached one; otherwise it creates an
    instance from [o].  The body is drawn later, once the language file has
    loaded.  Options on which the library throws are not modelled. *)
Definition DataTable (o : options) : M nat :=
  fun s =>
    match attached (tables s) with
    | Some h => (h, log (InitDataTable o) s)
    | None =>
        (length (tables s),
         log (InitDataTable o)
           (set_tables (tables s ++ [{| settings := o; destroyed := false |}])%list s))
    end.

End DataTables.

(* ===================================================================== *)
(** ** The script *)
(* ===================================================================== *)

Module Script.

Import Dom DataTables.

(** The markup of one selector cell (line 29). *)
Definition checkbox_html (idx : nat) : string :=
  "<input type=" +:+ dquote +:+ "checkbox" +:+ dquote
  +:+ " class=" +:+ dquote +:+ "row-select" +:+ dquote
  +:+ " data-index=" +:+ dquote +:+ of_index idx +:+ dquote +:+ " />".

(** The cell shown for column [col] of [row] (line 30). *)
Definition cell (row : object) (col : string) : jsval :=
  match Obj.get row col with
  | None => JStr ""
  | Some v => v
  end.

(** The data array handed to the table library (lines 28-31). *)
Definition dataSet (columns : list string) (rows : list object) : list (list jsval) :=
  imap (fun idx row => JStr (checkbox_html idx) :: (cell row <$> columns)) rows.

(** The options object of lines 33-41. *)
Definition table_options (columns : list string) (rows : list object) : options :=
  {| data := dataSet columns rows;
     columns := {| title := "" |} :: ((fun col => {| title := col |}) <$> columns);
     columnDefs := [ {| orderable := false; targets := 0 |} ];
     order := [ (1, asc) ];
     language_url := "https://cdn.datatables.net/plug-ins/1.13.6/i18n/ru.json" |}.

(** What [data[filial]] can evaluate to when it is not [undefined]. *)
Inductive fetched : Type :=
| Rows (rows : list object)     (* the array stored under the key *)
| Member (name : string).       (* a member the response object inherits *)

(** [data[filial] || []] (line 15): the own property when there is one (an
    array is truthy even when empty), else the inherited member of that
    name, else the empty array. *)
Definition rows_of (data : response) (key : string) : fetched :=
  match data !! key with
  | Some rows => Rows rows
  | None => if Obj.inherited key then Member key else Rows []
  end.

(** [rows.length] when [rows] is an inherited member: the number of
    parameters of the function, nothing for the prototype object. *)
Definition member_length (name : string) : option nat :=
  match list_find (fun m => m.1 = name) Obj.prototype_members with
  | Some (_, (_, n)) => n
  | None => None
  end.

(** The success callback of the request (lines 14-43), with the [filial]
    it closes over.  When [rows] is an inherited member, [rows.length === 0]
    holds only for a function without parameters; otherwise [rows[0]] is
    [undefined] and [Object.keys(rows[0])] throws a [TypeError] (line 21). *)
Definition onData (filial : selection) (data : response) : M unit :=
  match rows_of data (ToString filial) with
  | Rows [] => ret tt
  | Rows (row0 :: rest) =>
      let rows := row0 :: rest in
      let columns := Obj.keys row0 in
      thead_tr_append "<th></th>" ;;
      forEach columns (fun col => thead_tr_append ("<th>" +:+ col +:+ "</th>")) ;;
      let* h := DataTable (table_options columns rows) in
      modify (set_dataTable (Some h)) ;;
      exportBtn_prop_disabled false
  | Member name =>
      if bool_decide (member_length name = Some 0) then ret tt
      else throw "TypeError"
  end.

(** [fetchAndRender(filial)] up to the point where the request is out
    (lines 6-14). *)
Definition fetchAndRender (filial : selection) : M unit :=
  (let* dt := read dataTable in
   match dt with
   | Some h => destroy h ;; tbody_empty ;; thead_tr_empty
   | None => ret tt
   end) ;;
  exportBtn_prop_disabled true ;;
  getJSON ("/data?filial=" +:+ encodeURIComponent (ToString filial)) filial.

(** The change handler of the selection control (lines 47-50). *)
Definition filialSelect_change : M unit :=
  let* selected := read filial_val in
  fetchAndRender selected.

(** The elements matched by
    [$('#tenderTable tbody input.row-select:checked')], document order. *)
Definition row_select_checked (boxes : list checkbox) : list checkbox :=
  filter (fun b => is_checked b = true) boxes.

(** The [each] loop of lines 57-59: push every matched element's index. *)
Definition collect (matched : list checkbox) : list nat :=
  fold_left (fun checked el => (checked ++ [data_index el])%list) matched [].

(** [checked.join(',')] on an array of numbers. *)
Definition join_indices (checked : list nat) : string :=
  join "," (of_index <$> checked).

(** The target of lines 60-63. *)
Definition export_url (filial : selection) (boxes : list checkbox) : string :=
  let checked := collect (row_select_checked boxes) in
  let url := "/export?filial=" +:+ encodeURIComponent (ToString filial) in
  if Nat.ltb 0 (length checked)
  then url +:+ "&indices=" +:+ join_indices checked
  else url.

(** The click handler of the export button (lines 53-66). *)
Definition exportBtn_click : M unit :=
  let* filial := read filial_val in
  let* boxes := read tbody in
  navigate (export_url filial boxes).

(** The body of the ready handler after the handlers are registered
    (lines 69-72). *)
Definition ready : M unit :=
  let* initialFilial := read filial_val in
  if truthy initialFilial then fetchAndRender initialFilial else ret tt.

End Script.

Import Script.

(* ===================================================================== *)
(** ** The event loop *)
(* ===================================================================== *)

(** What can happen to the page once the script is loaded. *)
Inductive event : Type :=
| Change (v : selection)          (* a change event fires, the selection control showing [v] *)
| Response (k : nat) (d : response) (* the k-th outstanding request succeeds with body [d] *)
| Failure (k : nat)               (* the k-th outstanding request fails: no callback runs *)
| Draw (boxes : list checkbox)    (* the library redraws the body, or the user ticks boxes *)
| Click.                          (* the user clicks the export button *)

(** One turn of the event loop; each handler runs to completion.  A disabled
    button fires no click, a response needs an outstanding request, and body
    rows are drawn only for an attached table.  [Draw] stands for the boxes
    of the body changing; what else the library rewrites when it draws is
    not modelled. *)
Definition step (s : page) (e : event) : page :=
  match e with
  | Change v => exec filialSelect_change (set_filial_val v s)
  | Response k d =>
      match pending s !! k with
      | Some filial => exec (onData filial d) (set_pending (delete k (pending s)) s)
      | None => s
      end
  | Failure k => set_pending (delete k (pending s)) s
  | Draw boxes => if rendered s then set_tbody boxes s else s
  | Click => if export_disabled s then s else exec exportBtn_click s
  end.

Definition run (s : page) (evs : list event) : page := fold_left step evs s.

(** Modelled from the spec: the page markup, which is not part of the
    script.  The table starts with an empty header row and an empty body,
    the export control starts disabled (it is "false while no table is
    rendered"), and the selection control shows [v]. *)
Definition markup (v : selection) : page :=
  {| dataTable := None; tables := []; thead_tr := []; tbody := [];
     export_disabled := true; filial_val := v; pending := [];
     href := None; trace := [] |}.

(** The page once the ready handler has run. *)
Definition loaded (v : selection) : page := exec ready (markup v).

(** Pages the script can be in. *)
Definition reachable (s : page) : Prop :=
  exists v evs, s = run (loaded v) evs.

(* ===================================================================== *)
(** ** Notions used in the statements *)
(* ===================================================================== *)

(** A character that survives URI encoding: unreserved, or the escape
    sign itself. *)
Definition uriSafe (x : ascii) : bool :=
  uriUnreserved x || bool_decide (x = "%"%char).

(** The cells of the header row built for the columns [columns]. *)
Definition header_cells (columns : list string) : list string :=
  "<th></th>" :: ((fun col => "<th>" +:+ col +:+ "</th>") <$> columns).

(** The effects of tearing down the table behind the handle [dt]. *)
Definition teardown_effects (dt : option nat) : list effect :=
  match dt with
  | Some h => [Destroy h; EmptyTbody; EmptyTheadTr]
  | None => []
  end.

(** The request address for a selection. *)
Definition data_url (filial : selection) : string :=
  "/data?filial=" +:+ encodeURIComponent (ToString filial).

(** The rows a response holds under a selection's own key (none when the
    key is missing). *)
Definition rows_for (filial : selection) (d : response) : list object :=
  default [] (d !! ToString filial).

(** No instance of the list is attached to the table element any more. *)
Definition all_destroyed (l : list instance) : Prop :=
  forall i inst, l !! i = Some inst -> destroyed inst = true.

(** What holds of every page the script can be in. *)
Record Inv (s : page) : Prop := {
  (* the handle refers to an instance that exists *)
  inv_handle : forall h, dataTable s = Some h -> is_Some (tables s !! h);
  (* an instance that is not destroyed is the one behind the handle *)
  inv_single : forall i inst,
      tables s !! i = Some inst -> destroyed inst = false -> dataTable s = Some i;
  (* the export control is enabled exactly while a table is rendered *)
  inv_export : export_disabled s = negb (rendered s);
  (* without a rendered table the header row and the body are empty *)
  inv_clean : rendered s = false -> thead_tr s = [] /\ tbody s = [];
  (* every instance was created from a non-empty record sequence *)
  inv_rows : forall i inst,
      tables s !! i = Some inst ->
      exists row0 rest, settings inst = table_options (Obj.keys row0) (row0 :: rest)
}.

(** The options of the table on show, if one is rendered. *)
Definition shown (s : page) : option options :=
  match dataTable s with
  | Some h =>
      match tables s !! h with
      | Some inst => if destroyed inst then None else Some (settings inst)
      | None => None
      end
  | None => None
  end.

(** Select [v], then receive [d] as the response to that very request. *)
Definition select_and_receive (v : selection) (d : response) (s : page) : page :=
  step (step s (Change v)) (Response (length (pending s)) d).

(* ===================================================================== *)
(** ** Scenarios *)
(* ===================================================================== *)

Definition east : response :=
  {[ "East" := [ [("id", JStr "1"); ("amount", JStr "50")];
                 [("id", JStr "2")] ] ]}.

Definition south : response := {[ "South" := [] ]}.

Definition west : response := {[ "West" := [ [("id", JStr "7")] ] ]}.

(** The page opened on [East], before any response. *)
Definition east_loading : page := loaded (Some "East").

(** The page opened on [East] with its table rendered. *)
Definition east_rendered : page := run east_loading [Response 0 east].

(** [West] is selected while the request for [East] is still out, and then
    the response for [East] arrives. *)
Definition east_overlap : page :=
  run east_loading [Change (Some "West"); Response 0 east].

(* ===================================================================== *)
(** ** Further notions: decoding and counting *)
(* ===================================================================== *)

(** The value of an upper-case hexadecimal digit (0 for any other
    character). *)
Definition hexValue (c : ascii) : nat :=
  from_option fst 0
    (list_find (fun d => d = c) (String.list_ascii_of_string "0123456789ABCDEF")).

(** Percent-decoding of a byte string: [%XY] becomes the byte with
    hexadecimal digits [X] and [Y], any other character stands for itself. *)
Fixpoint percentDecode (s : string) : string :=
  match s with
  | "" => ""
  | String c r =>
      if bool_decide (c = "%"%char) then
        match r with
        | String h (String l r') =>
            String (ascii_of_nat (hexValue h * 16 + hexValue l)) (percentDecode r')
        | _ => String c (percentDecode r)
        end
      else String c (percentDecode r)
  end.

(** A decimal digit. *)
Definition is_digit (c : ascii) : bool :=
  bool_decide (c ∈ String.list_ascii_of_string "0123456789").

(** How often the character [x] occurs in [s]. *)
Definition occurrences (x : ascii) (s : string) : nat :=
  length (filter (fun c => c = x) (chars s)).

(** Is the effect a data request? *)
Definition is_request (e : effect) : bool :=
  match e with GetJSON _ => true | _ => false end.

(** The number of data requests among the effects [t]. *)
Definition requests (t : list effect) : nat :=
  length (filter (fun e => is_request e = true) t).



(** Is the event a selection? *)
Definition is_selection (e : event) : bool :=
  match e with Change _ => true | _ => false end.

(** The number of selections among the events [evs]. *)
Definition selections (evs : list event) : nat :=
  length (filter (fun e => is_selection e = true) evs).

(* ===================================================================== *)
(** ** Facts about strings *)
(* ===================================================================== *)

Section StringFacts.

Lemma app_cons (c : ascii) (a b : string) :
  String c a +:+ b = String c (a +:+ b).
Proof. reflexivity. Qed.

Lemma chars_app (a b : string) : chars (a +:+ b) = (chars a ++ chars b)%list.
Proof.
  induction a as [|c a IH]; [reflexivity|].
  rewrite app_cons. unfold chars in *. simpl. by rewrite IH.
Qed.

Lemma app_empty_r (a : string) : a +:+ "" = a.
Proof. induction a as [|c a IH]; [reflexivity|]. by rewrite app_cons, IH. Qed.

Lemma app_assoc_str (a b c : string) : (a +:+ b) +:+ c = a +:+ (b +:+ c).
Proof. induction a as [|x a IH]; [reflexivity|]. by rewrite !app_cons, IH. Qed.



Lemma encodeByte_safe (c : ascii) : forallb uriSafe (chars (encodeByte c)) = true.
Proof. destruct c as [[] [] [] [] [] [] [] []]; vm_compute; reflexivity. Qed.

Lemma encodeURIComponent_safe (s : string) :
  forallb uriSafe (chars (encodeURIComponent s)) = true.
Proof.
  induction s as [|c s IH]; simpl; [reflexivity|].
  rewrite chars_app, forallb_app, encodeByte_safe, IH. reflexivity.
Qed.

(** An encoded component never contains a query-string delimiter. *)
Lemma encodeURIComponent_no_delim (s : string) (x : ascii) :
  uriSafe x = false -> x ∉ chars (encodeURIComponent s).
Proof.
  intros Hx Hin. pose proof (encodeURIComponent_safe s) as H.
  rewrite forallb_forall in H. apply list_elem_of_In in Hin.
  apply H in Hin. congruence.
Qed.

Lemma of_index_inj (i j : nat) : of_index i = of_index j -> i = j.
Proof. unfold of_index. apply (inj pretty). Qed.

End StringFacts.

Example encode_plain : encodeURIComponent "North" = "North".
Proof. reflexivity. Qed.

Example encode_reserved : encodeURIComponent "a b&c=d/e" = "a%20b%26c%3Dd%2Fe".
Proof. reflexivity. Qed.

Example join_two : join "," [of_index 2; of_index 0] = "2,0".
Proof. vm_compute. reflexivity. Qed.

(* ===================================================================== *)
(** ** What each handler does to the page *)
(* ===================================================================== *)

Section HandlerFacts.

Import Dom DataTables.

Lemma exec_bind {A B} (m : M A) (k : A -> M B) (s : page) :
  exec (bind m k) s = exec (k (m s).1) (m s).2.
Proof. unfold exec, bind. by destruct (m s). Qed.

Lemma exec_modify (f : page -> page) (s : page) : exec (modify f) s = f s.
Proof. reflexivity. Qed.

(** The page after the header loop of lines 24-26. *)
Lemma forEach_th (cols : list string) (s : page) :
  let s' := exec (forEach cols (fun col => thead_tr_append ("<th>" +:+ col +:+ "</th>"))) s in
  thead_tr s' = (thead_tr s ++ ((fun col => "<th>" +:+ col +:+ "</th>") <$> cols))%list
  /\ trace s' = (trace s ++ (AppendTh <$> ((fun col => "<th>" +:+ col +:+ "</th>") <$> cols)))%list
  /\ dataTable s' = dataTable s /\ tables s' = tables s /\ tbody s' = tbody s
  /\ export_disabled s' = export_disabled s /\ filial_val s' = filial_val s
  /\ pending s' = pending s /\ href s' = href s.
Proof.
  revert s. induction cols as [|c cols IH]; intros s.
  - cbn. rewrite !app_nil_r. repeat split.
  - cbn zeta. cbn [forEach]. rewrite exec_bind. cbn [fst snd].
    destruct (IH (exec (thead_tr_append ("<th>" +:+ c +:+ "</th>")) s))
      as (H1 & H2 & H3 & H4 & H5 & H6 & H7 & H8 & H9).
    unfold exec in *. cbn [fst snd thead_tr_append modify] in *.
    rewrite H1, H2, H3, H4, H5, H6, H7, H8, H9. cbn.
    rewrite <- !app_assoc. repeat split.
Qed.

(** [fetchAndRender]: field by field. *)
Lemma fetchAndRender_spec (filial : selection) (s : page) :
  let s' := exec (fetchAndRender filial) s in
  dataTable s' = dataTable s
  /\ tables s' = match dataTable s with
                 | Some h => alter mark_destroyed h (tables s)
                 | None => tables s
                 end
  /\ thead_tr s' = match dataTable s with Some _ => [] | None => thead_tr s end
  /\ tbody s' = match dataTable s with Some _ => [] | None => tbody s end
  /\ export_disabled s' = true
  /\ filial_val s' = filial_val s
  /\ pending s' = (pending s ++ [filial])%list
  /\ href s' = href s
  /\ trace s' = (trace s ++ teardown_effects (dataTable s)
                   ++ [PropDisabled true; GetJSON (data_url filial)])%list.
Proof.
  unfold fetchAndRender, exec, bind, read, teardown_effects.
  destruct (dataTable s) as [h|] eqn:Hdt; cbn; rewrite ?Hdt, <- ?app_assoc;
    repeat split.
Qed.

(** The success callback on an empty array: nothing happens. *)
Lemma onData_empty (filial : selection) (d : response) (s : page) :
  rows_of d (ToString filial) = Rows [] -> exec (onData filial d) s = s.
Proof. unfold onData. intros ->. reflexivity. Qed.

(** The success callback when the response stores no rows under the key:
    nothing happens, or the callback throws before it touches the page. *)
Lemma onData_no_rows (filial : selection) (d : response) :
  rows_for filial d = [] ->
  (forall s, exec (onData filial d) s = s)
  \/ (forall s, exec (onData filial d) s = exec (throw "TypeError") s).
Proof.
  unfold onData, rows_for, rows_of.
  destruct (d !! ToString filial) as [rows|]; cbn.
  - intros ->. by left.
  - intros _. destruct (Obj.inherited _); [|by left].
    destruct (bool_decide _); [by left|by right].
Qed.

(** The success callback on a response with rows: field by field. *)
Lemma onData_rows (filial : selection) (d : response) (s : page) row0 rest :
  rows_for filial d = row0 :: rest ->
  let o := table_options (Obj.keys row0) (row0 :: rest) in
  let s' := exec (onData filial d) s in
  thead_tr s' = (thead_tr s ++ header_cells (Obj.keys row0))%list
  /\ trace s' = (trace s ++ (AppendTh <$> header_cells (Obj.keys row0))
                   ++ [InitDataTable o; PropDisabled false])%list
  /\ export_disabled s' = false
  /\ tbody s' = tbody s /\ filial_val s' = filial_val s
  /\ pending s' = pending s /\ href s' = href s
  /\ dataTable s' = Some (default (length (tables s)) (attached (tables s)))
  /\ tables s' = match attached (tables s) with
                 | Some _ => tables s
                 | None => (tables s ++ [{| settings := o; destroyed := false |}])%list
                 end.
Proof.
  unfold onData, rows_for, rows_of. intros Hrows.
  destruct (d !! ToString filial) as [rows|]; [|done].
  cbn in Hrows. subst rows. cbn zeta.
  rewrite exec_bind. cbn [fst snd]. rewrite exec_bind. cbn [fst snd].
  set (s1 := (thead_tr_append "<th></th>" s).2).
  destruct (forEach_th (Obj.keys row0) s1)
    as (H1 & H2 & H3 & H4 & H5 & H6 & H7 & H8 & H9).
  unfold exec in *.
  set (s2 := (forEach (Obj.keys row0) _ s1).2) in *.
  unfold bind, DataTable. rewrite H4.
  subst s1. cbn [thead_tr_append modify snd fst tables log set_thead_tr] in *.
  cbn in H1, H2, H4, H5, H6, H7, H8, H9.
  unfold header_cells.
  destruct (attached (tables s)) as [h|]; cbn;
    rewrite ?H1, ?H2, ?H4, ?H5, ?H6, ?H7, ?H8, ?H9, <- ?app_assoc; cbn;
    repeat split.
Qed.

End HandlerFacts.

(* ===================================================================== *)
(** ** Invariants of the event loop *)
(* ===================================================================== *)

Section Invariants.

Import Dom DataTables.

Lemma attached_Some (l : list instance) (h : nat) :
  attached l = Some h ->
  exists inst, l !! h = Some inst /\ destroyed inst = false.
Proof.
  unfold attached. destruct (list_find _ l) as [[i x]|] eqn:E; [|done].
  intros [= <-]. apply list_find_Some in E as (? & ? & _). eauto.
Qed.

Lemma attached_None (l : list instance) :
  attached l = None <-> all_destroyed l.
Proof.
  unfold attached, all_destroyed. split.
  - destruct (list_find _ l) as [[i x]|] eqn:E; [done|]. intros _ i inst Hi.
    apply list_find_None in E. rewrite Forall_forall in E.
    apply list_elem_of_lookup_2, E in Hi. by destruct (destroyed inst).
  - intros H. destruct (list_find _ l) as [[i x]|] eqn:E; [|done].
    apply list_find_Some in E as (Hi & Hx & _). apply H in Hi. congruence.
Qed.


Lemma rendered_true_attached (s : page) :
  Inv s -> rendered s = true -> attached (tables s) = dataTable s.
Proof.
  intros HI Hr. destruct (attached (tables s)) as [h|] eqn:Ha.
  - apply attached_Some in Ha as (inst & Hi & Hd).
    symmetry. by apply (inv_single s HI h inst).
  - apply attached_None in Ha. unfold rendered in Hr.
    destruct (dataTable s) as [h|]; [|done].
    destruct (tables s !! h) as [inst|] eqn:Hi; [|done].
    apply Ha in Hi. rewrite Hi in Hr. done.
Qed.

(** After [fetchAndRender] no table is attached, whatever was there. *)
Lemma fetchAndRender_all_destroyed (filial : selection) (s : page) :
  Inv s -> all_destroyed (tables (exec (fetchAndRender filial) s)).
Proof.
  intros HI. destruct (fetchAndRender_spec filial s) as (Hdt & Htb & _).
  rewrite Htb. intros i inst Hi. destruct (destroyed inst) eqn:Hd; [done|].
  destruct (dataTable s) as [h|] eqn:Eh.
  - destruct (decide (i = h)) as [->|Hne].
    + rewrite list_lookup_alter_eq in Hi.
      destruct (tables s !! h); by simplify_eq/=.
    + rewrite list_lookup_alter_ne in Hi by done.
      pose proof (inv_single s HI i inst Hi Hd). congruence.
  - pose proof (inv_single s HI i inst Hi Hd). congruence.
Qed.

Lemma all_destroyed_not_rendered (s : page) :
  all_destroyed (tables s) -> rendered s = false.
Proof.
  intros H. unfold rendered. destruct (dataTable s) as [h|]; [|done].
  destruct (tables s !! h) as [inst|] eqn:Hi; [|done].
  apply H in Hi. by rewrite Hi.
Qed.

Lemma Inv_irrelevant (s s' : page) :
  dataTable s' = dataTable s -> tables s' = tables s ->
  thead_tr s' = thead_tr s -> tbody s' = tbody s ->
  export_disabled s' = export_disabled s ->
  Inv s -> Inv s'.
Proof.
  intros H1 H2 H3 H4 H5 HI.
  assert (rendered s' = rendered s) as Hr by (unfold rendered; by rewrite H1, H2).
  destruct HI as [A B C D E].
  split; rewrite ?H1, ?H2, ?H3, ?H4, ?H5, ?Hr; assumption.
Qed.

Lemma Inv_fetchAndRender (filial : selection) (s : page) :
  Inv s -> Inv (exec (fetchAndRender filial) s).
Proof.
  intros HI. pose proof (fetchAndRender_all_destroyed filial s HI) as Hall.
  pose proof (all_destroyed_not_rendered _ Hall) as Hr.
  destruct (fetchAndRender_spec filial s)
    as (Hdt & Htb & Hth & Hbd & Hex & _).
  split.
  - intros h Hh. rewrite Hdt in Hh. rewrite Htb.
    destruct (inv_handle s HI h Hh) as [inst Hi]. rewrite Hh.
    rewrite list_lookup_alter_eq, Hi. eauto.
  - intros i inst Hi Hd. apply Hall in Hi. congruence.
  - by rewrite Hex, Hr.
  - intros _. rewrite Hth, Hbd. destruct (dataTable s) as [h|] eqn:Eh; [done|].
    apply (inv_clean s HI). unfold rendered. by rewrite Eh.
  - intros i inst Hi. rewrite Htb in Hi.
    destruct (dataTable s) as [h|]; [|by apply (inv_rows s HI i)].
    destruct (decide (i = h)) as [->|Hne].
    + rewrite list_lookup_alter_eq in Hi.
      destruct (tables s !! h) as [inst0|] eqn:E0; simplify_eq/=.
      apply (inv_rows s HI h inst0 E0).
    + rewrite list_lookup_alter_ne in Hi by done. by apply (inv_rows s HI i).
Qed.

Lemma Inv_onData (filial : selection) (d : response) (s : page) :
  Inv s -> Inv (exec (onData filial d) s).
Proof.
  intros HI. destruct (rows_for filial d) as [|row0 rest] eqn:Hrows.
  { destruct (onData_no_rows filial d Hrows) as [H|H]; rewrite H; [done|].
    by apply (Inv_irrelevant s). }
  destruct (onData_rows filial d s row0 rest Hrows)
    as (Hth & _ & Hex & Hbd & _ & _ & _ & Hdt & Htb).
  destruct (attached (tables s)) as [h|] eqn:Ha; cbn in Hdt.
  - destruct (attached_Some _ _ Ha) as (inst & Hi & Hd).
    assert (rendered (exec (onData filial d) s) = true) as Hr.
    { unfold rendered. by rewrite Hdt, Htb, Hi, Hd. }
    split.
    + intros h' Hh'. rewrite Hdt in Hh'. simplify_eq. rewrite Htb. eauto.
    + intros i inst' Hi' Hd'. rewrite Htb in Hi'. rewrite Hdt.
      pose proof (inv_single s HI i inst' Hi' Hd').
      pose proof (inv_single s HI h inst Hi Hd). congruence.
    + by rewrite Hex, Hr.
    + rewrite Hr. done.
    + intros i inst' Hi'. rewrite Htb in Hi'. by apply (inv_rows s HI i).
  - pose proof (proj1 (attached_None _) Ha) as Hall.
    assert (rendered (exec (onData filial d) s) = true) as Hr.
    { unfold rendered. rewrite Hdt, Htb.
      rewrite lookup_app_r by lia. by rewrite Nat.sub_diag. }
    split.
    + intros h' Hh'. rewrite Hdt in Hh'. simplify_eq. rewrite Htb.
      rewrite lookup_app_r by lia. rewrite Nat.sub_diag. eauto.
    + intros i inst' Hi' Hd'. rewrite Htb in Hi'. rewrite Hdt. f_equal.
      apply lookup_app_Some in Hi' as [Hi'|[Hge Hi']].
      * apply Hall in Hi'. congruence.
      * apply list_lookup_singleton_Some in Hi' as [? _]. lia.
    + by rewrite Hex, Hr.
    + rewrite Hr. done.
    + intros i inst' Hi'. rewrite Htb in Hi'.
      apply lookup_app_Some in Hi' as [Hi'|[Hge Hi']].
      * by apply (inv_rows s HI i).
      * apply list_lookup_singleton_Some in Hi' as [_ <-]. cbn. eauto.
Qed.

Lemma Inv_step (s : page) (e : event) : Inv s -> Inv (step s e).
Proof.
  intros HI. destruct e as [v|k d|k|boxes|]; cbn [step].
  - unfold filialSelect_change. rewrite exec_bind. cbn [read fst snd].
    apply Inv_fetchAndRender. by apply (Inv_irrelevant s).
  - destruct (pending s !! k) as [filial|]; [|done].
    apply Inv_onData. by apply (Inv_irrelevant s).
  - by apply (Inv_irrelevant s).
  - destruct (rendered s) eqn:Hr; [|done].
    destruct HI as [A B C D E].
    split; cbn; try assumption;
      change (rendered (set_tbody boxes s)) with (rendered s);
      first [assumption | congruence].
  - destruct (export_disabled s); [done|]. by apply (Inv_irrelevant s).
Qed.

Lemma Inv_run (evs : list event) (s : page) : Inv s -> Inv (run s evs).
Proof.
  revert s. induction evs as [|e evs IH]; intros s HI; [done|].
  cbn. apply IH. by apply Inv_step.
Qed.

Lemma Inv_markup (v : selection) : Inv (markup v).
Proof. split; by cbn. Qed.

Lemma Inv_loaded (v : selection) : Inv (loaded v).
Proof.
  unfold loaded, ready. rewrite exec_bind. cbn [read fst snd].
  destruct (truthy _); [|apply Inv_markup].
  apply Inv_fetchAndRender, Inv_markup.
Qed.

Lemma reachable_Inv (s : page) : reachable s -> Inv s.
Proof. intros (v & evs & ->). apply Inv_run, Inv_loaded. Qed.

Lemma reachable_step (s : page) (e : event) : reachable s -> reachable (step s e).
Proof.
  intros (v & evs & ->). exists v, (evs ++ [e])%list.
  unfold run. by rewrite fold_left_app.
Qed.

End Invariants.

(* ===================================================================== *)
(** ** The export target *)
(* ===================================================================== *)

Section ExportTarget.

Lemma collect_from (matched : list checkbox) (acc : list nat) :
  fold_left (fun checked el => (checked ++ [data_index el])%list) matched acc
  = (acc ++ (data_index <$> matched))%list.
Proof.
  revert acc. induction matched as [|el matched IH]; intros acc; cbn.
  - by rewrite app_nil_r.
  - rewrite IH, <- app_assoc. reflexivity.
Qed.

(** The [each] loop pushes the indices in the order of the matched set. *)
Lemma collect_spec (matched : list checkbox) :
  collect matched = data_index <$> matched.
Proof. unfold collect. by rewrite collect_from. Qed.

Lemma export_url_spec (filial : selection) (boxes : list checkbox) :
  export_url filial boxes
  = "/export?filial=" +:+ encodeURIComponent (ToString filial) +:+
    match data_index <$> filter (fun b => is_checked b = true) boxes with
    | [] => ""
    | i :: r => "&indices=" +:+ join "," (of_index <$> (i :: r))
    end.
Proof.
  unfold export_url, join_indices, row_select_checked. rewrite collect_spec.
  destruct (data_index <$> _) as [|i r]; cbn [length Nat.ltb Nat.leb].
  - by rewrite app_empty_r.
  - by rewrite app_assoc_str.
Qed.

End ExportTarget.

(** C1. Every export click navigates to [/export?filial=<encoded filial>]; the
    encoded filial holds no [&], so with nothing checked that is the whole
    address and it has no [indices] parameter.  With boxes checked the address
    continues with [&indices=] and the comma-joined indices carried by the
    checked boxes, in the document order of the boxes. *)
Theorem export_click_target (s : page) :
  let filial := encodeURIComponent (ToString (filial_val s)) in
  let indices := data_index <$> filter (fun b => is_checked b = true) (tbody s) in
  href (exec exportBtn_click s)
  = Some ("/export?filial=" +:+ filial +:+
          match indices with
          | [] => ""
          | i :: r => "&indices=" +:+ join "," (of_index <$> (i :: r))
          end)
  /\ ("&"%char ∉ chars ("/export?filial=" +:+ filial))
  /\ (last (trace (exec exportBtn_click s))
      = Some (Navigate (export_url (filial_val s) (tbody s)))).
Proof.
  cbn zeta. unfold exportBtn_click, exec, bind, read. cbn.
  rewrite export_url_spec. split; [reflexivity|]. split.
  - rewrite chars_app. intros [H|H]%elem_of_app.
    + vm_compute in H. by repeat (apply elem_of_cons in H as [H|H]; [done|]);
        apply elem_of_nil in H.
    + by apply encodeURIComponent_no_delim in H.
  - by rewrite last_snoc.
Qed.

(** The two addresses given for filial [North]. *)
Example export_north_none :
  export_url (Some "North") [] = "/export?filial=North".
Proof. vm_compute. reflexivity. Qed.

Example export_north_2_0 :
  export_url (Some "North")
    [ {| data_index := 2; is_checked := true |};
      {| data_index := 1; is_checked := false |};
      {| data_index := 0; is_checked := true |} ]
  = "/export?filial=North&indices=2,0".
Proof. vm_compute. reflexivity. Qed.

(* ===================================================================== *)
(** ** Selecting a filial and receiving its records *)
(* ===================================================================== *)

Section SelectReceive.

Import Dom DataTables.

Lemma step_Change (s : page) (v : selection) :
  step s (Change v) = exec (fetchAndRender v) (set_filial_val v s).
Proof. reflexivity. Qed.

Lemma step_Response (s : page) (k : nat) (d : response) (filial : selection) :
  pending s !! k = Some filial ->
  step s (Response k d)
  = exec (onData filial d) (set_pending (delete k (pending s)) s).
Proof. intros H. cbn. by rewrite H. Qed.

(** A response without rows under the key only retires its request, unless
    the callback throws, which adds the exception to the effects. *)
Lemma step_Response_no_rows (s : page) (k : nat) (d : response) (filial : selection) :
  pending s !! k = Some filial -> rows_for filial d = [] ->
  step s (Response k d) = set_pending (delete k (pending s)) s
  \/ step s (Response k d)
     = exec (throw "TypeError") (set_pending (delete k (pending s)) s).
Proof.
  intros H Hr. rewrite (step_Response _ _ _ _ H).
  destruct (onData_no_rows filial d Hr) as [E|E]; rewrite E; [by left|by right].
Qed.


(** The page right after a selection: torn down, disabled, request out. *)
Lemma after_Change (s : page) (v : selection) :
  Inv s ->
  let s' := step s (Change v) in
  Inv s' /\ rendered s' = false /\ shown s' = None
  /\ thead_tr s' = [] /\ tbody s' = [] /\ export_disabled s' = true
  /\ pending s' = (pending s ++ [v])%list /\ dataTable s' = dataTable s.
Proof.
  intros HI. cbn zeta. rewrite step_Change.
  assert (Inv (set_filial_val v s)) as HI0 by by apply (Inv_irrelevant s).
  pose proof (Inv_fetchAndRender v _ HI0) as HI1.
  pose proof (fetchAndRender_all_destroyed v _ HI0) as Hall.
  pose proof (all_destroyed_not_rendered _ Hall) as Hr.
  destruct (inv_clean _ HI1 Hr) as [Hth Hbd].
  destruct (fetchAndRender_spec v (set_filial_val v s))
    as (Hdt & _ & _ & _ & Hex & _ & Hpe & _).
  split; [exact HI1|]. split; [exact Hr|].
  split; [|by rewrite Hth, Hbd, Hex, Hpe, Hdt].
  revert Hr. unfold shown, rendered.
  destruct (dataTable _) as [h|]; [|done].
  destruct (tables _ !! h) as [inst|]; [|done].
  by destruct (destroyed inst).
Qed.

End SelectReceive.

(* ===================================================================== *)
(** ** The scenarios, evaluated *)
(* ===================================================================== *)

Example east_scenario :
  thead_tr east_rendered = ["<th></th>"; "<th>id</th>"; "<th>amount</th>"]
  /\ (data <$> shown east_rendered)
     = Some [ [JStr (checkbox_html 0); JStr "1"; JStr "50"];
              [JStr (checkbox_html 1); JStr "2"; JStr ""] ]
  /\ export_disabled east_rendered = false.
Proof. vm_compute. done. Qed.

Example south_scenario :
  let s := run (loaded (Some "South")) [Response 0 south] in
  thead_tr s = [] /\ shown s = None /\ tables s = [] /\ export_disabled s = true.
Proof. vm_compute. done. Qed.

Example east_export_row_1 :
  href (run east_rendered
          [Draw [ {| data_index := 0; is_checked := false |};
                  {| data_index := 1; is_checked := true |} ]; Click])
  = Some "/export?filial=East&indices=1".
Proof. vm_compute. reflexivity. Qed.


Lemma east_rendered_reachable : reachable east_rendered.
Proof. by exists (Some "East"), [Response 0 east]. Qed.

Lemma east_overlap_reachable : reachable east_overlap.
Proof. by exists (Some "East"), [Change (Some "West"); Response 0 east]. Qed.

(* ===================================================================== *)
(** ** The header row *)
(* ===================================================================== *)

Lemma header_cells_length (columns : list string) :
  length (header_cells columns) = 1 + length columns.
Proof. unfold header_cells. cbn. by rewrite length_fmap. Qed.

Lemma header_cells_lookup (columns : list string) (j : nat) (col : string) :
  columns !! j = Some col ->
  header_cells columns !! S j = Some ("<th>" +:+ col +:+ "</th>").
Proof. intros H. unfold header_cells. by rewrite lookup_cons, list_lookup_fmap, H. Qed.

(** C2, as stated, fails when fetches overlap: the page opens on [East],
    [West] is selected before the response for [East] arrives, and both
    responses carry rows.  The response for [West], whose first record has one
    key, is handled on a header row that already holds the three cells of
    [East]: the row ends up with five cells instead of [1 + 1]. *)
Lemma header_doubles_when_fetches_overlap :
  reachable east_overlap
  /\ pending east_overlap !! 0 = Some (Some "West")
  /\ exists row0 rest,
      rows_for (Some "West") west = row0 :: rest
      /\ 1 + length (Obj.keys row0) = 2
      /\ length (thead_tr (step east_overlap (Response 0 west))) = 5
      /\ thead_tr (step east_overlap (Response 0 west))
         = (header_cells ["id"; "amount"] ++ header_cells (Obj.keys row0))%list
      /\ thead_tr (step east_overlap (Response 0 west))
         <> header_cells (Obj.keys row0).
Proof.
  split; [exact east_overlap_reachable|].
  split; [by vm_compute|].
  eexists _, _. split; [by vm_compute|]. by vm_compute.
Qed.

(** C2 (amended). Handling a response with at least one row, the script
    appends exactly [1 + |keys(firstRow)|] pieces of markup to the header
    row, in this order: [<th></th>], then [<th>key</th>] for each key of the
    first record in its key order.  Nothing is derived from later rows, and
    the callback never empties the row, so the markup comes after whatever
    the row already holds. *)
Theorem header_markup_of_first_record
    (s : page) (k : nat) (filial : selection) (d : response) row0 rest :
  pending s !! k = Some filial ->
  rows_for filial d = row0 :: rest ->
  (exists after,
      trace (step s (Response k d))
      = (trace s ++ (AppendTh <$> header_cells (Obj.keys row0)) ++ after)%list
      /\ Forall (fun e => e <> EmptyTheadTr /\ forall html, e <> AppendTh html) after)
  /\ length (header_cells (Obj.keys row0)) = 1 + length (Obj.keys row0)
  /\ header_cells (Obj.keys row0) !! 0 = Some "<th></th>"
  /\ (forall j col, Obj.keys row0 !! j = Some col ->
        header_cells (Obj.keys row0) !! S j = Some ("<th>" +:+ col +:+ "</th>")).
Proof.
  intros Hk Hrows. split; [|split; [|split]].
  - rewrite (step_Response _ _ _ _ Hk).
    destruct (onData_rows filial d (set_pending (delete k (pending s)) s)
                row0 rest Hrows) as (_ & -> & _).
    eexists. split; [reflexivity|].
    repeat (apply Forall_cons; split; [done|]). apply Forall_nil_2.
  - apply header_cells_length.
  - reflexivity.
  - apply header_cells_lookup.
Qed.

Lemma header_markup_of_first_record_witness :
  exists after,
    trace (step east_loading (Response 0 east))
    = (trace east_loading
         ++ [AppendTh "<th></th>"; AppendTh "<th>id</th>"; AppendTh "<th>amount</th>"]
         ++ after)%list.
Proof.
  destruct (header_markup_of_first_record east_loading 0 (Some "East") east
              [("id", JStr "1"); ("amount", JStr "50")] [[("id", JStr "2")]]
              eq_refl eq_refl) as ((after & H & _) & _).
  exists after. exact H.
Defined.

(* ===================================================================== *)
(** ** A response without records *)
(* ===================================================================== *)


(** When the key is missing and the filial is not the name of an inherited
    member, a response is handled like one with zero rows: it only retires
    its request. *)
Lemma missing_key_is_zero_rows
    (s : page) (k : nat) (filial : selection) (d : response) :
  pending s !! k = Some filial ->
  (d !! ToString filial = None /\ Obj.inherited (ToString filial) = false)
  \/ d !! ToString filial = Some [] ->
  step s (Response k d) = set_pending (delete k (pending s)) s.
Proof.
  intros Hk Hd. rewrite (step_Response _ _ _ _ Hk). apply onData_empty.
  unfold rows_of. destruct Hd as [[-> ->] | ->]; done.
Qed.

(** C3. The claim fails for a filial named like a member of
    [Object.prototype].  The page opens on the filial [constructor] and the
    response has no such key: [data[filial]] is then the inherited function,
    not [undefined], its [length] is not 0, and [Object.keys(rows[0])]
    throws.  With an empty sequence under the key the same response only
    retires the request, so a missing key is not treated like zero rows. *)
Theorem inherited_filial_not_zero_rows :
  let s := loaded (Some "constructor") in
  pending s !! 0 = Some (Some "constructor")
  /\ east !! "constructor" = None
  /\ step s (Response 0 east) = exec (throw "TypeError") (set_pending [] s)
  /\ trace (step s (Response 0 east)) = (trace s ++ [Uncaught "TypeError"])%list
  /\ step s (Response 0 (<["constructor" := []]> east)) = set_pending [] s
  /\ step s (Response 0 east)
     <> step s (Response 0 (<["constructor" := []]> east)).
Proof.
  cbn zeta. split; [reflexivity|]. split; [reflexivity|].
  assert (step (loaded (Some "constructor")) (Response 0 east)
          = exec (throw "TypeError") (set_pending [] (loaded (Some "constructor"))))
    as E1 by (by vm_compute).
  assert (step (loaded (Some "constructor"))
            (Response 0 (<["constructor" := []]> east))
          = set_pending [] (loaded (Some "constructor"))) as E2.
  { rewrite (missing_key_is_zero_rows _ 0 (Some "constructor"));
      [reflexivity|reflexivity|right; apply lookup_insert_eq]. }
  rewrite E1, E2. split; [reflexivity|]. split; [reflexivity|].
  split; [reflexivity|]. intros E. apply (f_equal trace) in E. discriminate E.
Qed.

(* ===================================================================== *)
(** ** The data handed to the table *)
(* ===================================================================== *)

Section DataSet.


Lemma dataSet_lookup (columns : list string) (rows : list object) i row :
  rows !! i = Some row ->
  dataSet columns rows !! i
  = Some (JStr (checkbox_html i) :: (cell row <$> columns)).
Proof. intros H. unfold dataSet. by rewrite list_lookup_imap, H. Qed.

Lemma dataSet_length (columns : list string) (rows : list object) :
  length (dataSet columns rows) = length rows.
Proof. unfold dataSet. apply length_imap. Qed.

(** A key that [Object.keys] does not list is no own property. *)
Lemma get_own_absent (row : object) (col : string) :
  col ∉ Obj.keys row -> Obj.get_own row col = None.
Proof.
  unfold Obj.keys. induction row as [|[k v] row IH]; [done|].
  cbn. intros Hn. apply not_elem_of_cons in Hn as [Hne Hn].
  destruct (decide (k = col)); [congruence|]. by apply IH.
Qed.

(** A key that [Object.keys] lists has an own value. *)
Lemma get_own_present (row : object) (col : string) :
  col ∈ Obj.keys row -> is_Some (Obj.get_own row col).
Proof.
  unfold Obj.keys. induction row as [|[k v] row IH]; cbn.
  - by intros ?%elem_of_nil.
  - intros Hin. destruct (decide (k = col)) as [->|Hne]; [by eexists|].
    apply elem_of_cons in Hin as [->|Hin]; [done|]. by apply IH.
Qed.

(** The effects of handling a response with rows: header cells, then the
    table, then the export control. *)
Lemma response_trace (s : page) k filial (d : response) row0 rest :
  pending s !! k = Some filial ->
  rows_for filial d = row0 :: rest ->
  trace (step s (Response k d))
  = (trace s ++ (AppendTh <$> header_cells (Obj.keys row0))
       ++ [InitDataTable (table_options (Obj.keys row0) (row0 :: rest));
           PropDisabled false])%list.
Proof.
  intros Hk Hrows. rewrite (step_Response _ _ _ _ Hk).
  by destruct (onData_rows filial d (set_pending (delete k (pending s)) s)
                 row0 rest Hrows) as (_ & -> & _).
Qed.


End DataSet.





(** Under a column that is not the name of an inherited member, the cell
    of a record without that key is the empty string; a value the record
    has is passed on unchanged. *)
Lemma absent_value_renders_empty
    (row0 : object) (rest : list object) (i j : nat) (row : object) (col : string) :
  (row0 :: rest) !! i = Some row ->
  Obj.keys row0 !! j = Some col ->
  exists line,
    data (table_options (Obj.keys row0) (row0 :: rest)) !! i = Some line
    /\ (col ∉ Obj.keys row -> Obj.inherited col = false ->
        line !! S j = Some (JStr ""))
    /\ (forall v, Obj.get_own row col = Some v -> line !! S j = Some v).
Proof.
  intros Hi Hj. eexists. split; [by apply dataSet_lookup|].
  rewrite lookup_cons, list_lookup_fmap, Hj. cbn. unfold cell, Obj.get.
  split.
  - intros Habs Hin. by rewrite get_own_absent, Hin.
  - by intros v ->.
Qed.

(** C6. The claim fails for a column named like a member of
    [Object.prototype].  The first record has the keys [id] and
    [constructor], the second only [id]: the cell of the second row under
    [constructor] is the inherited function, not the empty string, because
    [row[col]] is not [undefined] there. *)
Theorem inherited_member_rendered_for_absent_value :
  let row0 := [("id", JStr "1"); ("constructor", JStr "x")] in
  let row1 := [("id", JStr "2")] in
  Obj.keys row0 = ["id"; "constructor"]
  /\ ("constructor" ∉ Obj.keys row1)
  /\ data (table_options (Obj.keys row0) [row0; row1]) !! 1
     = Some [JStr (checkbox_html 1); JStr "2"; JInherited "constructor"]
  /\ cell row1 "constructor" <> JStr "".
Proof.
  cbn zeta. split; [reflexivity|]. split; [|split; [reflexivity|done]].
  cbn. intros [H|H]%elem_of_cons; [done|by apply elem_of_nil in H].
Qed.

(** C8. The claim fails for a first record without keys.  The options still
    ask for an ascending order on column 1, but the only column defined is
    the selector column 0 and the body rows hold a single cell: there is no
    first data column to order by. *)
Theorem keyless_first_record_orders_missing_column :
  let o := table_options (Obj.keys []) [ [] ] in
  order o = [(1, asc)]
  /\ columns o = [ {| title := "" |} ]
  /\ columns o !! 1 = None
  /\ data o = [ [JStr (checkbox_html 0)] ]
  /\ columnDefs o = [ {| orderable := false; targets := 0 |} ].
Proof. cbn zeta. repeat split. Qed.

(* ===================================================================== *)
(** ** The export control *)
(* ===================================================================== *)


Lemma table_options_data_nonempty (columns : list string) row0 rest :
  data (table_options columns (row0 :: rest)) <> [].
Proof. done. Qed.

Lemma shown_rendered (s : page) :
  rendered s = true -> exists h inst,
    dataTable s = Some h /\ tables s !! h = Some inst
    /\ destroyed inst = false /\ shown s = Some (settings inst).
Proof.
  unfold rendered, shown. destruct (dataTable s) as [h|]; [|done].
  destruct (tables s !! h) as [inst|] eqn:Hi; [|done].
  destruct (destroyed inst) eqn:E; [done|]. intros _.
  by exists h, inst.
Qed.


Lemma loaded_trace (v : selection) :
  trace (loaded v)
  = (if truthy v then [PropDisabled true; GetJSON (data_url v)] else []).
Proof.
  unfold loaded, ready, exec, bind, read. cbn [markup filial_val fst snd].
  by destruct (truthy v).
Qed.

Section EffectOrder.







End EffectOrder.



(* ===================================================================== *)
(** ** Teardown *)
(* ===================================================================== *)

(** C7. [fetchAndRender] issues its request last, on a page [s0] where the
    export control has already been disabled and no table is rendered.  If a
    table was rendered, its instance has been destroyed and the body and the
    header row have been emptied, in this order, before the control is
    disabled and the request goes out.  On pages the script can be in, [s0]
    has no attached instance at all and an empty header row and body. *)
Theorem teardown_before_request (s : page) (filial : selection) :
  exists s0,
    exec (fetchAndRender filial) s
    = exec (Dom.getJSON (data_url filial) filial) s0
    /\ trace s0
       = (trace s ++ teardown_effects (dataTable s) ++ [PropDisabled true])%list
    /\ trace (exec (fetchAndRender filial) s)
       = (trace s0 ++ [GetJSON (data_url filial)])%list
    /\ export_disabled s0 = true
    /\ rendered s0 = false
    /\ (rendered s = true ->
        exists h inst,
          dataTable s = Some h /\ tables s !! h = Some inst
          /\ teardown_effects (dataTable s) = [Destroy h; EmptyTbody; EmptyTheadTr]
          /\ tables s0 !! h = Some (DataTables.mark_destroyed inst)
          /\ thead_tr s0 = [] /\ tbody s0 = [])
    /\ (reachable s ->
        all_destroyed (tables s0) /\ thead_tr s0 = [] /\ tbody s0 = []).
Proof.
  exists (exec (Dom.exportBtn_prop_disabled true)
            (exec (match dataTable s with
                   | Some h =>
                       DataTables.destroy h ;; Dom.tbody_empty ;; Dom.thead_tr_empty
                   | None => ret tt
                   end) s)).
  assert (forall s1 : page,
             all_destroyed (tables (exec (fetchAndRender filial) s)) ->
             tables s1 = tables (exec (fetchAndRender filial) s) ->
             all_destroyed (tables s1)) as Hcopy by (by intros s1 H ->).
  split; [|split; [|split; [|split; [|split; [|split]]]]].
  - unfold fetchAndRender, exec, bind, read. by destruct (dataTable s).
  - unfold exec, bind, teardown_effects.
    destruct (dataTable s); cbn; by rewrite <- ?app_assoc.
  - unfold fetchAndRender, exec, bind, read. by destruct (dataTable s).
  - reflexivity.
  - unfold rendered, exec, bind. destruct (dataTable s) as [h|] eqn:E; cbn;
      rewrite E; [|done].
    rewrite list_lookup_alter_eq. by destruct (tables s !! h).
  - intros Hr. destruct (shown_rendered s Hr) as (h & inst & Hh & Hi & _).
    exists h, inst. rewrite Hh. unfold exec, bind. cbn.
    by rewrite list_lookup_alter_eq, Hi.
  - intros HI%reachable_Inv. split.
    + apply Hcopy; [by apply fetchAndRender_all_destroyed|].
      unfold fetchAndRender, exec, bind, read. by destruct (dataTable s).
    + destruct (dataTable s) as [h|] eqn:E; [done|].
      apply (inv_clean s HI). unfold rendered. by rewrite E.
Qed.

Lemma teardown_before_request_witness :
  exists s0,
    exec (fetchAndRender (Some "South")) east_rendered
    = exec (Dom.getJSON (data_url (Some "South")) (Some "South")) s0
    /\ rendered s0 = false /\ thead_tr s0 = [] /\ tbody s0 = []
    /\ Destroy 0 ∈ trace s0.
Proof.
  destruct (teardown_before_request east_rendered (Some "South"))
    as (s0 & H1 & H2 & _ & _ & H3 & H4 & _).
  exists s0. split; [exact H1|]. split; [exact H3|].
  destruct H4 as (h & inst & Hh & _ & Ht & _ & Hth & Hbd); [reflexivity|].
  split; [exact Hth|]. split; [exact Hbd|].
  rewrite H2, Ht. injection Hh as <-.
  apply elem_of_app. right. apply elem_of_app. left. apply elem_of_cons. by left.
Defined.


(* ===================================================================== *)
(** ** The table handle *)
(* ===================================================================== *)

Section Handle.

(** No handler ever sets the handle back to [null]. *)
Lemma handle_kept_by_step (s : page) (e : event) :
  is_Some (dataTable s) -> is_Some (dataTable (step s e)).
Proof.
  intros Hs. destruct e as [v|k d|k|boxes|].
  - rewrite step_Change.
    by destruct (fetchAndRender_spec v (set_filial_val v s)) as (-> & _).
  - cbn. destruct (pending s !! k) as [filial|]; [|done].
    destruct (rows_for filial d) as [|row0 rest] eqn:Hrows.
    + by destruct (onData_no_rows filial d Hrows) as [E|E]; rewrite E.
    + by destruct (onData_rows filial d (set_pending (delete k (pending s)) s)
                     row0 rest Hrows) as (_ & _ & _ & _ & _ & _ & _ & -> & _).
  - done.
  - cbn. by destruct (rendered s).
  - cbn. by destruct (export_disabled s).
Qed.

Lemma handle_kept_by_run (evs : list event) (s : page) :
  is_Some (dataTable s) -> is_Some (dataTable (run s evs)).
Proof.
  revert s. induction evs as [|e evs IH]; intros s Hs; [done|].
  cbn. by apply IH, handle_kept_by_step.
Qed.

(** A selection made while the handle is set runs the teardown branch. *)
Lemma Change_trace_with_handle (s : page) (h : nat) (v : selection) :
  dataTable s = Some h ->
  trace (step s (Change v))
  = (trace s ++ [Destroy h; EmptyTbody; EmptyTheadTr;
                 PropDisabled true; GetJSON (data_url v)])%list.
Proof.
  intros Hh. rewrite step_Change.
  destruct (fetchAndRender_spec v (set_filial_val v s))
    as (_ & _ & _ & _ & _ & _ & _ & _ & ->).
  cbn. by rewrite Hh.
Qed.

End Handle.

(** C10. Once the handle refers to an instance it is never reset: on every
    later page it is still set, so every later selection runs the teardown
    branch and calls [destroy] on the instance behind it.  In particular,
    after a selection whose fetch yields no rows the handle still refers to
    the instance that selection destroyed, and the next selection calls
    [destroy] on that already destroyed instance again. *)
Theorem handle_is_never_reset (s : page) (h : nat) :
  reachable s ->
  dataTable s = Some h ->
  (forall evs, exists h',
      dataTable (run s evs) = Some h'
      /\ forall v, trace (step (run s evs) (Change v))
                   = (trace (run s evs)
                        ++ [Destroy h'; EmptyTbody; EmptyTheadTr;
                            PropDisabled true; GetJSON (data_url v)])%list)
  /\ (forall v d,
        rows_for v d = [] ->
        let s1 := select_and_receive v d s in
        dataTable s1 = Some h
        /\ (exists inst, tables s1 !! h = Some inst /\ destroyed inst = true)
        /\ Destroy h ∈ trace s1
        /\ forall v', trace (step s1 (Change v'))
                      = (trace s1 ++ [Destroy h; EmptyTbody; EmptyTheadTr;
                                      PropDisabled true; GetJSON (data_url v')])%list).
Proof.
  intros HI%reachable_Inv Hh. split.
  - intros evs.
    destruct (handle_kept_by_run evs s) as [h' Hh']; [by rewrite Hh|].
    exists h'. split; [done|]. intros v. by apply Change_trace_with_handle.
  - intros v d Hrows. cbn zeta. unfold select_and_receive.
    destruct (after_Change s v HI)
      as (HI1 & Hr1 & _ & _ & _ & _ & Hpe1 & Hdt1).
    pose proof (Change_trace_with_handle s h v Hh) as Htr.
    set (s1 := step s (Change v)) in *.
    assert (pending s1 !! length (pending s) = Some v) as Hk.
    { rewrite Hpe1, lookup_app_r by lia. by rewrite Nat.sub_diag. }
    assert (exists s2,
               step s1 (Response (length (pending s)) d) = s2
               /\ dataTable s2 = dataTable s1 /\ tables s2 = tables s1
               /\ exists t, trace s2 = (trace s1 ++ t)%list) as (s2 & -> & D2 & T2 & t & Tr2).
    { destruct (step_Response_no_rows _ _ _ _ Hk Hrows) as [-> | ->];
        eexists; (split; [reflexivity|]); (split; [reflexivity|]);
        (split; [reflexivity|]).
      - exists []. cbn. by rewrite app_nil_r.
      - by exists [Uncaught "TypeError"]. }
    assert (dataTable s2 = Some h) as Hh2 by (by rewrite D2, Hdt1).
    split; [exact Hh2|]. split; [|split].
    + destruct (inv_handle s1 HI1 h) as [inst Hi]; [by rewrite Hdt1|].
      exists inst. split; [by rewrite T2|].
      destruct (destroyed inst) eqn:Hd; [done|].
      unfold rendered in Hr1. rewrite Hdt1, Hh, Hi, Hd in Hr1. done.
    + rewrite Tr2, Htr. apply elem_of_app. left.
      apply elem_of_app. right. apply elem_of_cons. by left.
    + intros v'. by apply Change_trace_with_handle.
Qed.

Lemma handle_is_never_reset_witness :
  let s1 := select_and_receive (Some "South") south east_rendered in
  dataTable s1 = Some 0
  /\ (exists inst, tables s1 !! 0 = Some inst /\ destroyed inst = true)
  /\ trace (step s1 (Change (Some "East")))
     = (trace s1 ++ [Destroy 0; EmptyTbody; EmptyTheadTr;
                     PropDisabled true; GetJSON (data_url (Some "East"))])%list.
Proof.
  destruct (handle_is_never_reset east_rendered 0 east_rendered_reachable eq_refl)
    as (_ & H).
  destruct (H (Some "South") south eq_refl) as (H1 & H2 & _ & H3).
  split; [exact H1|]. split; [exact H2|]. apply H3.
Defined.

(* ===================================================================== *)
(** ** The initial load *)
(* ===================================================================== *)

(** X1. When the page is loaded, a request goes out for the initially selected
    filial exactly when that selection is neither [null] nor the empty
    string.  In that case export is disabled first and the handler performs
    nothing else; otherwise the page is left as the markup has it.  No
    teardown runs and no table exists in either case. *)
Theorem ready_requests_initial_filial (v : selection) :
  pending (loaded v) = (if truthy v then [v] else [])
  /\ trace (loaded v)
     = (if truthy v then [PropDisabled true; GetJSON (data_url v)] else [])
  /\ (truthy v = false <-> v = None \/ v = Some "")
  /\ loaded v = (if truthy v
                 then log (GetJSON (data_url v))
                        (set_pending [v] (log (PropDisabled true) (markup v)))
                 else markup v)
  /\ dataTable (loaded v) = None /\ tables (loaded v) = []
  /\ thead_tr (loaded v) = [] /\ export_disabled (loaded v) = true.
Proof.
  unfold loaded, ready, exec, bind, read. cbn [markup filial_val fst snd].
  assert (truthy v = false <-> v = None \/ v = Some "") as Hiff.
  { destruct v as [s|]; cbn.
    - rewrite negb_false_iff, bool_decide_eq_true.
      split; [intros ->; by right | by intros [?|[= ->]]].
    - split; [by left|done]. }
  destruct (truthy v); repeat split; try apply Hiff; done.
Qed.

(* ===================================================================== *)
(** ** Addresses *)
(* ===================================================================== *)

Section Addresses.

Lemma percentDecode_encodeByte (c : ascii) (r : string) :
  percentDecode (encodeByte c +:+ r) = String c (percentDecode r).
Proof. destruct c as [[] [] [] [] [] [] [] []]; reflexivity. Qed.

Lemma percentDecode_encode (s : string) :
  percentDecode (encodeURIComponent s) = s.
Proof.
  induction s as [|c s IH]; [reflexivity|].
  cbn [encodeURIComponent]. by rewrite percentDecode_encodeByte, IH.
Qed.

Lemma encodeURIComponent_inj (s1 s2 : string) :
  encodeURIComponent s1 = encodeURIComponent s2 -> s1 = s2.
Proof.
  intros H. apply (f_equal percentDecode) in H.
  by rewrite !percentDecode_encode in H.
Qed.

Lemma filter_unsafe_nil (x : ascii) (l : list ascii) :
  uriSafe x = false -> forallb uriSafe l = true ->
  filter (fun c => c = x) l = [].
Proof.
  intros Hx. induction l as [|c l IH]; [done|]. cbn [forallb].
  intros [Hc Hl]%andb_prop. rewrite filter_cons.
  destruct (decide (c = x)) as [->|_]; [congruence|]. by apply IH.
Qed.

Lemma occurrences_app (x : ascii) (a b : string) :
  occurrences x (a +:+ b) = occurrences x a + occurrences x b.
Proof. unfold occurrences. by rewrite chars_app, filter_app, length_app. Qed.

End Addresses.

(** X2. The request address determines the requested filial: decoding the
    query value gives the filial string back, so two selections are requested
    at the same address exactly when they convert to the same string.  A
    [null] selection is requested as the filial named [null]. *)
Theorem data_url_determines_filial (v1 v2 : selection) :
  (data_url v1 = data_url v2 <-> ToString v1 = ToString v2)
  /\ percentDecode (encodeURIComponent (ToString v1)) = ToString v1
  /\ data_url None = data_url (Some "null").
Proof.
  split; [|split; [apply percentDecode_encode|reflexivity]].
  unfold data_url. split.
  - intros H. by apply (inj (String.app _)), encodeURIComponent_inj in H.
  - by intros ->.
Qed.

Lemma data_url_determines_filial_witness :
  data_url (Some "East") = data_url (Some "East")
  /\ data_url (Some "East") <> data_url (Some "West").
Proof.
  destruct (data_url_determines_filial (Some "East") (Some "East")) as ([_ H] & _).
  destruct (data_url_determines_filial (Some "East") (Some "West")) as ([H' _] & _).
  split; [by apply H|]. intros E. apply H' in E. discriminate E.
Defined.

(** X3. Whatever the filial, the request address has one question mark and
    one equals sign, and no ampersand, hash or space: the query string is the
    single parameter [filial], and no character of the selection can start
    another parameter or a fragment. *)
Theorem data_url_has_one_parameter (v : selection) :
  occurrences "?" (data_url v) = 1
  /\ occurrences "=" (data_url v) = 1
  /\ occurrences "&" (data_url v) = 0
  /\ occurrences "#" (data_url v) = 0
  /\ occurrences " " (data_url v) = 0
  /\ exists q, data_url v = "/data?filial=" +:+ q /\ forallb uriSafe (chars q) = true.
Proof.
  unfold data_url.
  pose proof (encodeURIComponent_safe (ToString v)) as Hsafe.
  assert (forall x, uriSafe x = false ->
            occurrences x (encodeURIComponent (ToString v)) = 0) as Hz.
  { intros x Hx. unfold occurrences. by rewrite (filter_unsafe_nil x _ Hx Hsafe). }
  rewrite !occurrences_app, !Hz by reflexivity.
  repeat split; try reflexivity. by eexists.
Qed.

(* ===================================================================== *)
(** ** Reading the indices back *)
(* ===================================================================== *)

Section Indices.

Lemma pretty_N_go_digits (x : N) (s : string) :
  forallb is_digit (chars s) = true ->
  forallb is_digit (chars (pretty_N_go x s)) = true.
Proof.
  revert s. induction (N.lt_wf_0 x) as [x _ IH]; intros s Hs.
  assert (x = 0 \/ 0 < x)%N as [->|Hx] by lia.
  - by rewrite pretty_N_go_0.
  - rewrite pretty_N_go_step by done. apply IH; [by apply N.div_lt|].
    change (chars (String ?c s)) with (c :: chars s). cbn [forallb].
    rewrite Hs, andb_true_r. unfold pretty_N_char. by repeat case_match.
Qed.

Lemma pretty_N_go_nonempty (x : N) (s : string) :
  s <> "" -> pretty_N_go x s <> "".
Proof.
  revert s. induction (N.lt_wf_0 x) as [x _ IH]; intros s Hs.
  assert (x = 0 \/ 0 < x)%N as [->|Hx] by lia.
  - by rewrite pretty_N_go_0.
  - rewrite pretty_N_go_step by done. apply IH; [by apply N.div_lt|done].
Qed.

(** An index prints as a non-empty string of decimal digits. *)
Lemma of_index_digits (n : nat) :
  forallb is_digit (chars (of_index n)) = true /\ of_index n <> "".
Proof.
  unfold of_index, pretty, pretty_nat, pretty, pretty_N.
  destruct (decide (N.of_nat n = 0%N)) as [_|Hn]; [done|]. split.
  - by apply pretty_N_go_digits.
  - assert (0 < N.of_nat n)%N as Hpos by lia.
    rewrite pretty_N_go_step by done. by apply pretty_N_go_nonempty.
Qed.

Lemma of_index_no_comma (n : nat) : ","%char ∉ chars (of_index n).
Proof.
  destruct (of_index_digits n) as [H _]. rewrite forallb_forall in H.
  intros Hin%list_elem_of_In. apply H in Hin. done.
Qed.

(** Two strings that agree up to their first [c] agree before and after it. *)
Lemma split_at_first (c : ascii) (s1 s2 t1 t2 : string) :
  c ∉ chars s1 -> c ∉ chars s2 ->
  s1 +:+ String c t1 = s2 +:+ String c t2 -> s1 = s2 /\ t1 = t2.
Proof.
  revert s2. induction s1 as [|a s1 IH]; intros [|b s2] H1 H2 E.
  - by injection E as ->.
  - injection E as <- _. exfalso. apply H2. by left.
  - injection E as -> _. exfalso. apply H1. by left.
  - rewrite !app_cons in E. injection E as -> E.
    destruct (IH s2) as [-> ->]; [| |done..].
    + intros Hin. apply H1. by right.
    + intros Hin. apply H2. by right.
Qed.

Lemma join_cons2 (a b : string) (r : list string) :
  join "," (a :: b :: r) = a +:+ String "," (join "," (b :: r)).
Proof. reflexivity. Qed.

Lemma join_single (a : string) : join "," [a] = a.
Proof. reflexivity. Qed.

Lemma join_nonempty (a : string) (r : list string) :
  a <> "" -> join "," (a :: r) <> "".
Proof.
  intros Ha. destruct a as [|c a]; [done|]. destruct r as [|b r]; [done|].
  rewrite join_cons2, app_cons. done.
Qed.

Lemma comma_in_tail (a t : string) : ","%char ∈ chars (a +:+ String "," t).
Proof.
  rewrite chars_app. apply elem_of_app. right.
  change (chars (String "," t)) with (","%char :: chars t). by left.
Qed.

(** Joining non-empty, comma-free strings with commas loses nothing. *)
Lemma join_inj (l1 l2 : list string) :
  Forall (fun x => x <> "" /\ ","%char ∉ chars x) l1 ->
  Forall (fun x => x <> "" /\ ","%char ∉ chars x) l2 ->
  join "," l1 = join "," l2 -> l1 = l2.
Proof.
  revert l2. induction l1 as [|a r1 IH]; intros [|b r2] H1 H2 E; [done|..].
  - apply Forall_cons in H2 as [[Hb _] _]. symmetry in E.
    by apply join_nonempty in E.
  - apply Forall_cons in H1 as [[Ha _] _]. by apply join_nonempty in E.
  - apply Forall_cons in H1 as [[Ha Hac] H1].
    apply Forall_cons in H2 as [[Hb Hbc] H2].
    destruct r1 as [|a' r1], r2 as [|b' r2].
    + rewrite !join_single in E. by subst.
    + rewrite join_single, join_cons2 in E. exfalso. apply Hac.
      rewrite E. apply comma_in_tail.
    + rewrite join_single, join_cons2 in E. exfalso. apply Hbc.
      rewrite <- E. apply comma_in_tail.
    + rewrite !join_cons2 in E.
      apply split_at_first in E as [-> E]; [|done..].
      f_equal. by apply IH.
Qed.

Lemma join_indices_inj (l1 l2 : list nat) :
  join_indices l1 = join_indices l2 -> l1 = l2.
Proof.
  unfold join_indices. intros E.
  assert (forall l : list nat,
             Forall (fun x => x <> "" /\ ","%char ∉ chars x) (of_index <$> l)) as Hgood.
  { intros l. apply Forall_fmap, Forall_forall. intros n _. cbn. split.
    - apply of_index_digits.
    - apply of_index_no_comma. }
  apply join_inj in E; [|apply Hgood..].
  revert l2 E. induction l1 as [|a l1 IH]; intros [|b l2] E; try done.
  rewrite !fmap_cons in E. injection E as Ea E.
  apply of_index_inj in Ea as ->. f_equal. by apply IH.
Qed.

End Indices.

(** X4. The export address determines the checked indices: for a given
    selection, two states of the body boxes lead to the same address exactly
    when the indices of their checked boxes, read in document order, are the
    same list.  Unchecked boxes never influence the address. *)
Theorem export_url_determines_checked
    (filial : selection) (boxes1 boxes2 : list checkbox) :
  export_url filial boxes1 = export_url filial boxes2
  <-> data_index <$> filter (fun b => is_checked b = true) boxes1
      = data_index <$> filter (fun b => is_checked b = true) boxes2.
Proof.
  rewrite !export_url_spec. split; [|by intros ->].
  intros E. do 2 apply (inj (String.app _)) in E.
  destruct (data_index <$> filter _ boxes1) as [|i1 r1],
           (data_index <$> filter _ boxes2) as [|i2 r2]; try done.
  apply (inj (String.app _)) in E. by apply (join_indices_inj (i1 :: r1) (i2 :: r2)).
Qed.

Lemma export_url_determines_checked_witness :
  export_url (Some "East")
    [ {| data_index := 0; is_checked := false |};
      {| data_index := 1; is_checked := true |} ]
  = export_url (Some "East") [ {| data_index := 1; is_checked := true |} ]
  /\ export_url (Some "East") [ {| data_index := 1; is_checked := true |} ]
     <> export_url (Some "East") [ {| data_index := 11; is_checked := true |} ].
Proof.
  split.
  - by apply (export_url_determines_checked (Some "East")).
  - intros E. apply (export_url_determines_checked (Some "East")) in E.
    discriminate E.
Defined.

(* ===================================================================== *)
(** ** The shape of the table *)
(* ===================================================================== *)

(** X5. The data handed to the table library is rectangular and fits its
    columns: there is one body row per fetched record, every body row has
    exactly as many cells as there are column definitions, and that is also
    the number of header cells the script appends. *)
Theorem table_data_fits_columns (cols : list string) (rows : list object) :
  let o := table_options cols rows in
  length (data o) = length rows
  /\ Forall (fun line => length line = length (columns o)) (data o)
  /\ length (columns o) = length (header_cells cols)
  /\ length (columns o) = 1 + length cols.
Proof.
  cbn zeta. split; [apply dataSet_length|]. split; [|split].
  - apply Forall_forall. intros line Hin.
    apply list_elem_of_lookup in Hin as [i Hi]. cbn [data table_options] in Hi.
    unfold dataSet in Hi. rewrite list_lookup_imap in Hi.
    destruct (rows !! i) as [row|]; simplify_eq/=.
    by rewrite !length_fmap.
  - rewrite header_cells_length. cbn. by rewrite length_fmap.
  - cbn. by rewrite length_fmap.
Qed.

(** X6. The header row and the column definitions agree cell by cell: the
    markup appended at position [i] of the header row is a [th] element
    around the title of column [i]; position 0 is the untitled selector
    column, position [j + 1] the [j]-th key of the first record. *)
Theorem header_cell_shows_column_title
    (cols : list string) (rows : list object) (i : nat) (c : column) :
  columns (table_options cols rows) !! i = Some c ->
  header_cells cols !! i = Some ("<th>" +:+ title c +:+ "</th>")
  /\ match i with
     | 0 => title c = ""
     | S j => cols !! j = Some (title c)
     end.
Proof.
  unfold header_cells. cbn [columns table_options]. rewrite !lookup_cons.
  destruct i as [|j].
  - by intros [= <-].
  - rewrite !list_lookup_fmap. destruct (cols !! j) as [col|]; [|done].
    by intros [= <-].
Qed.

Lemma header_cell_shows_column_title_witness :
  header_cells ["id"; "amount"] !! 2 = Some "<th>amount</th>".
Proof.
  by destruct (header_cell_shows_column_title ["id"; "amount"] [] 2
                 {| title := "amount" |} eq_refl) as [H _].
Defined.

(** X7. A body row depends on its record only through the values the record
    has under the keys of the first record: records that read the same under
    every column give the same data, so properties under other keys, and the
    order in which a record lists its properties, never show. *)
Theorem body_rows_read_only_the_columns
    (cols : list string) (rows rows' : list object) :
  length rows = length rows' ->
  (forall i row row' col,
      rows !! i = Some row -> rows' !! i = Some row' -> col ∈ cols ->
      Obj.get row col = Obj.get row' col) ->
  dataSet cols rows = dataSet cols rows'.
Proof.
  intros Hlen Hsame. apply list_eq. intros i. unfold dataSet.
  rewrite !list_lookup_imap.
  destruct (rows !! i) as [row|] eqn:Hi, (rows' !! i) as [row'|] eqn:Hi'; cbn.
  - do 2 f_equal. apply list_fmap_ext. intros j col Hj. unfold cell.
    rewrite (Hsame i row row' col Hi Hi'); [done|].
    by apply list_elem_of_lookup_2 in Hj.
  - apply lookup_lt_Some in Hi. apply lookup_ge_None in Hi'. lia.
  - apply lookup_ge_None in Hi. apply lookup_lt_Some in Hi'. lia.
  - done.
Qed.

Lemma body_rows_read_only_the_columns_witness :
  dataSet ["id"] [ [("id", JStr "1")]; [("id", JStr "2"); ("note", JStr "x")] ]
  = dataSet ["id"] [ [("id", JStr "1")]; [("note", JStr "y"); ("id", JStr "2")] ].
Proof.
  apply body_rows_read_only_the_columns; [reflexivity|].
  intros i row row' col Hi Hi' Hc.
  apply list_elem_of_singleton in Hc as ->.
  destruct i as [|[|i]]; cbn in Hi, Hi'; [| |discriminate Hi].
  - injection Hi as <-. injection Hi' as <-. reflexivity.
  - injection Hi as <-. injection Hi' as <-. reflexivity.
Defined.

(* ===================================================================== *)
(** ** Requests *)
(* ===================================================================== *)

Section Requests.

Lemma requests_app (t1 t2 : list effect) :
  requests (t1 ++ t2) = requests t1 + requests t2.
Proof. unfold requests. by rewrite filter_app, length_app. Qed.

Lemma requests_AppendTh (cells : list string) :
  requests (AppendTh <$> cells) = 0.
Proof.
  unfold requests. induction cells as [|c cells IH]; [done|].
  rewrite fmap_cons, filter_cons. by destruct (decide _).
Qed.

Lemma requests_teardown (dt : option nat) : requests (teardown_effects dt) = 0.
Proof. by destruct dt. Qed.

(** Only a selection sends a request, and it sends exactly one. *)
Lemma requests_step (s : page) (e : event) :
  requests (trace (step s e))
  = requests (trace s) + (if is_selection e then 1 else 0).
Proof.
  destruct e as [v|k d|k|boxes|]; cbn [is_selection]; rewrite ?Nat.add_0_r.
  - rewrite step_Change.
    destruct (fetchAndRender_spec v (set_filial_val v s))
      as (_ & _ & _ & _ & _ & _ & _ & _ & ->).
    rewrite !requests_app, requests_teardown. reflexivity.
  - destruct (pending s !! k) as [filial|] eqn:Hk.
    2:{ cbn [step]. by rewrite Hk. }
    destruct (rows_for filial d) as [|row0 rest] eqn:Hrows.
    + by destruct (step_Response_no_rows _ _ _ _ Hk Hrows) as [-> | ->];
        [|cbn [exec throw snd trace]; rewrite requests_app, Nat.add_0_r].
    + rewrite (response_trace _ _ _ _ _ _ Hk Hrows).
      rewrite !requests_app, requests_AppendTh.
      change (requests [InitDataTable _; PropDisabled false]) with 0. lia.
  - reflexivity.
  - cbn [step]. by destruct (rendered s).
  - cbn [step]. destruct (export_disabled s); [done|].
    unfold exportBtn_click, exec, bind, read. cbn [fst snd Dom.navigate modify].
    cbn [trace log set_href]. rewrite requests_app.
    change (requests [Navigate _]) with 0. lia.
Qed.

End Requests.


(* ===================================================================== *)
(** ** Selections and responses, composed *)
(* ===================================================================== *)

Section Composition.

Lemma page_ext (s1 s2 : page) :
  dataTable s1 = dataTable s2 -> tables s1 = tables s2 ->
  thead_tr s1 = thead_tr s2 -> tbody s1 = tbody s2 ->
  export_disabled s1 = export_disabled s2 -> filial_val s1 = filial_val s2 ->
  pending s1 = pending s2 -> href s1 = href s2 -> trace s1 = trace s2 ->
  s1 = s2.
Proof. destruct s1, s2. cbn. by intros -> -> -> -> -> -> -> -> ->. Qed.

End Composition.



(** X11. The response callback never consults the selection control: it
    renders the records stored under the filial its own request was made
    for.  Handling a response and changing the value the control shows
    commute, so a response to an earlier selection is rendered in the same
    way after the control has moved on. *)
Theorem response_ignores_current_selection
    (s : page) (k : nat) (d : response) (v : selection) :
  step (set_filial_val v s) (Response k d)
  = set_filial_val v (step s (Response k d)).
Proof.
  cbn [step pending set_filial_val].
  destruct (pending s !! k) as [filial|]; [|done].
  set (sa := set_pending _ (set_filial_val v s)).
  set (sb := set_pending _ s).
  destruct (rows_for filial d) as [|row0 rest] eqn:Hrows.
  { by destruct (onData_no_rows filial d Hrows) as [E|E]; rewrite !E. }
  destruct (onData_rows filial d sa row0 rest Hrows)
    as (A1 & A2 & A3 & A4 & A5 & A6 & A7 & A8 & A9).
  destruct (onData_rows filial d sb row0 rest Hrows)
    as (B1 & B2 & B3 & B4 & B5 & B6 & B7 & B8 & B9).
  apply page_ext; cbn [dataTable tables thead_tr tbody export_disabled
                       filial_val pending href trace set_filial_val];
    rewrite ?A1, ?A2, ?A3, ?A4, ?A5, ?A6, ?A7, ?A8, ?A9,
            ?B1, ?B2, ?B3, ?B4, ?B6, ?B7, ?B8, ?B9; reflexivity.
Qed.

(** X12. A response with records that arrives while a table is rendered does
    not replace that table: the library keeps the attached instance, so the
    handle, the instances and the table on show stay as they are.  The
    script still appends the new header cells after the existing ones and
    sets export enabled. *)
Theorem response_while_rendered_keeps_table
    (s : page) (k : nat) (filial : selection) (d : response) row0 rest :
  reachable s ->
  rendered s = true ->
  pending s !! k = Some filial ->
  rows_for filial d = row0 :: rest ->
  let s' := step s (Response k d) in
  shown s' = shown s
  /\ dataTable s' = dataTable s /\ tables s' = tables s
  /\ thead_tr s' = (thead_tr s ++ header_cells (Obj.keys row0))%list
  /\ tbody s' = tbody s
  /\ export_disabled s' = false.
Proof.
  intros HI%reachable_Inv Hr Hk Hrows. cbn zeta.
  rewrite (step_Response _ _ _ _ Hk).
  set (s0 := set_pending _ s).
  destruct (onData_rows filial d s0 row0 rest Hrows)
    as (Hth & _ & Hex & Hbd & _ & _ & _ & Hdt & Htb).
  pose proof (rendered_true_attached s HI Hr) as Ha.
  change (tables s0) with (tables s) in Hdt, Htb. rewrite Ha in Hdt, Htb.
  destruct (shown_rendered s Hr) as (h & inst & Hh & _).
  rewrite Hh in Hdt, Htb. cbn in Hdt.
  assert (dataTable (exec (onData filial d) s0) = dataTable s) as Hdt'
    by by rewrite Hdt, Hh.
  split; [unfold shown; by rewrite Hdt', Htb|].
  by rewrite Hdt', Htb, Hth, Hbd, Hex.
Qed.

Lemma response_while_rendered_keeps_table_witness :
  shown (step east_overlap (Response 0 west)) = shown east_overlap
  /\ length (thead_tr (step east_overlap (Response 0 west))) = 5.
Proof.
  destruct (response_while_rendered_keeps_table east_overlap 0 (Some "West") west
              [("id", JStr "7")] [] east_overlap_reachable eq_refl eq_refl eq_refl)
    as (H1 & _ & _ & H2 & _).
  split; [exact H1|]. by rewrite H2.
Defined.





(** X8. Requests come from selections only: an event that is not a selection
    never sends a data request, a selection sends at most one, and exactly
    one while no table handle is set.  So the number of requests sent never
    exceeds the number of change events, plus one for a page loaded with a
    non-empty initial selection. *)
Theorem requests_come_from_selections (s : page) (e : event) :
  (is_selection e = false -> requests (trace (step s e)) = requests (trace s))
  /\ requests (trace (step s e)) <= requests (trace s) + 1
  /\ (forall v, dataTable s = None ->
        requests (trace (step s (Change v))) = requests (trace s) + 1)
  /\ (forall v evs,
        requests (trace (run (loaded v) evs))
        <= (if truthy v then 1 else 0) + selections evs).
Proof.
  split; [|split; [|split]].
  - intros He. rewrite requests_step, He. lia.
  - rewrite requests_step. destruct (is_selection e); lia.
  - intros v _. by rewrite requests_step.
  - intros v evs.
    assert (forall s0, requests (trace (run s0 evs))
                       = requests (trace s0) + selections evs) as Hrun.
    { induction evs as [|e0 evs IH]; intros s0.
      - change (run s0 []) with s0. change (selections []) with 0. lia.
      - change (run s0 (e0 :: evs)) with (run (step s0 e0) evs).
        rewrite IH, requests_step.
        assert (selections (e0 :: evs)
                = (if is_selection e0 then 1 else 0) + selections evs) as ->; [|lia].
        unfold selections. rewrite filter_cons.
        by destruct (is_selection e0). }
    rewrite Hrun, loaded_trace. by destruct (truthy v).
Qed.

(** X9. While no table handle is set, two selections in a row each disable
    the export control and send their own request: nothing is cancelled or
    merged, both requests are outstanding in the order they were made, the
    control shows the later value, and the table is left untouched. *)
Theorem selections_before_any_table (s : page) (v w : selection) :
  dataTable s = None ->
  let s2 := step (step s (Change v)) (Change w) in
  pending s2 = (pending s ++ [v; w])%list
  /\ trace s2 = (trace s ++ [PropDisabled true; GetJSON (data_url v);
                             PropDisabled true; GetJSON (data_url w)])%list
  /\ filial_val s2 = w /\ export_disabled s2 = true
  /\ dataTable s2 = None /\ tables s2 = tables s
  /\ thead_tr s2 = thead_tr s /\ tbody s2 = tbody s.
Proof.
  intros Hdt. cbn zeta. rewrite !step_Change.
  destruct (fetchAndRender_spec v (set_filial_val v s))
    as (Dv & Tv & Hv & Bv & Ev & Fv & Pv & _ & Rv).
  destruct (fetchAndRender_spec w
              (set_filial_val w (exec (fetchAndRender v) (set_filial_val v s))))
    as (D2 & T2 & H2 & B2 & E2 & F2 & P2 & _ & R2).
  cbn [dataTable tables thead_tr tbody pending filial_val trace set_filial_val]
    in Dv, Tv, Hv, Bv, Pv, Rv, D2, T2, H2, B2, F2, P2, R2.
  rewrite Hdt in Dv, Tv, Hv, Bv, Rv. rewrite Dv in D2, T2, H2, B2, R2.
  rewrite D2, T2, H2, B2, E2, F2, P2, R2, Tv, Hv, Bv, Pv, Rv.
  cbn [teardown_effects app]. rewrite <- !app_assoc. done.
Qed.

Lemma selections_before_any_table_witness :
  pending (step (step (loaded None) (Change (Some "East"))) (Change (Some "West")))
  = [Some "East"; Some "West"].
Proof.
  by destruct (selections_before_any_table (loaded None) (Some "East") (Some "West")
                 eq_refl) as (-> & _).
Defined.
